(** * The request handlers of src/api.js

    A shallow embedding of the eleven Express handlers exported by
    [src/api.js] and of the JavaScript they rely on: query values and the
    [Number] coercion, truthiness, object literals, [await] on a collaborator
    call, [res.json] and [next].

    Layout:
    - [JS]      values, binary64 numbers, [Number], [ToBoolean], objects;
    - [Async]   async function bodies as trees of interactions, and their runs;
    - [Api]     the handlers, transcribed one by one from the source;
    - [Fixture] a small in-memory collaborator, used to run the handlers;
    - [NumberFacts], [CoercionFacts]  what [Number] does to query values;
    - the properties of the handlers, then each of them run on [Fixture]. *)

From Stdlib Require Import ZArith List String Ascii DecimalString Bool Lia.
From Stdlib Require Import Floats.SpecFloat.
Import ListNotations.

Set Warnings "-register-all".

Open Scope string_scope.
Open Scope Z_scope.

(* ================================================================== *)
(** ** JavaScript values *)
(* ================================================================== *)

Module JS.

(** A JS Number is an IEEE 754 binary64: 53 bits of precision, infinities at
    exponent 1024.  [spec_float] has one NaN, both zeros and both
    infinities. *)
Definition number : Type := spec_float.

Definition prec : Z := 53.
Definition emax : Z := 1024.

Definition NaN : number := S754_nan.

(** An integer literal of the source ([0], [25]) as a Number. *)
Definition num_of_Z (z : Z) : number := binary_normalize prec emax z 0 false.

(** The Number nearest to [n / d] (ties to even), for [0 <= n] and [0 < d];
    [neg] is the sign.  One division with a sticky location, one rounding. *)
Definition round_ratio (neg : bool) (n d : Z) : number :=
  match n with
  | Z0 => S754_zero neg
  | _ =>
      let '(q, e, loc) := SFdiv_core_binary prec emax n 0 d 0 in
      binary_round_aux prec emax neg q e loc
  end.

(** *** Strings

    A JS string is a sequence of UTF-16 code units.  The model keeps the code
    units below 256, one [ascii] each: every character of the numeric literal
    grammar lives there, and so does the white space up to U+00A0. *)

Definition code (c : ascii) : Z := Z.of_N (N_of_ascii c).

(** StrWhiteSpaceChar: TAB, LF, VT, FF, CR, SP, NBSP. *)
Definition is_ws (c : ascii) : bool :=
  let n := code c in
  ((9 <=? n) && (n <=? 13)) || (n =? 32) || (n =? 160).

Fixpoint trim_left (s : string) : string :=
  match s with
  | EmptyString => EmptyString
  | String c r => if is_ws c then trim_left r else s
  end.

Fixpoint trim_right (s : string) : string :=
  match s with
  | EmptyString => EmptyString
  | String c r =>
      match trim_right r with
      | EmptyString => if is_ws c then EmptyString else String c EmptyString
      | r' => String c r'
      end
  end.

Definition trim (s : string) : string := trim_right (trim_left s).

(** The value of a digit in a base up to 16. *)
Definition digit_of (base : Z) (c : ascii) : option Z :=
  let n := code c in
  let d :=
    if (48 <=? n) && (n <=? 57) then n - 48
    else if (97 <=? n) && (n <=? 102) then n - 87
    else if (65 <=? n) && (n <=? 70) then n - 55
    else base in
  if d <? base then Some d else None.

(** The longest prefix of digits, and what follows it. *)
Fixpoint digits (base : Z) (s : string) : list Z * string :=
  match s with
  | EmptyString => ([], EmptyString)
  | String c r =>
      match digit_of base c with
      | Some d => let (ds, rest) := digits base r in (d :: ds, rest)
      | None => ([], s)
      end
  end.

(** The mathematical value of a digit sequence. *)
Definition mv (base : Z) (ds : list Z) : Z :=
  fold_left (fun acc d => acc * base + d) ds 0.

(** *** StringNumericLiteral (ECMA-262, StringToNumber) *)

Inductive literal : Type :=
| LInfinity (neg : bool)
| LDecimal (neg : bool) (int_part frac_part : list Z) (exponent : Z)
| LInteger (base : Z) (ds : list Z).

Definition is_e (c : ascii) : bool := (code c =? 101) || (code c =? 69).

(** ExponentPart(opt), then the end of the input. *)
Definition parse_exponent (s : string) : option Z :=
  match s with
  | EmptyString => Some 0
  | String c r =>
      if is_e c then
        let '(neg, r') :=
          match r with
          | String "-" t => (true, t)
          | String "+" t => (false, t)
          | _ => (false, r)
          end in
        match digits 10 r' with
        | ((_ :: _) as ds, EmptyString) => Some (if neg then - mv 10 ds else mv 10 ds)
        | _ => None
        end
      else None
  end.

(** StrUnsignedDecimalLiteral. *)
Definition parse_unsigned (neg : bool) (s : string) : option literal :=
  if String.eqb s "Infinity" then Some (LInfinity neg)
  else
    let (ip, r1) := digits 10 s in
    match r1 with
    | String "." r2 =>
        let (fp, r3) := digits 10 r2 in
        match ip, fp with
        | [], [] => None
        | _, _ => option_map (LDecimal neg ip fp) (parse_exponent r3)
        end
    | _ =>
        match ip with
        | [] => None
        | _ => option_map (LDecimal neg ip []) (parse_exponent r1)
        end
    end.

Definition radix_of (c : ascii) : option Z :=
  match c with
  | "b" | "B" => Some 2
  | "o" | "O" => Some 8
  | "x" | "X" => Some 16
  | _ => None
  end%char.

(** NonDecimalIntegerLiteral: no sign, at least one digit. *)
Definition parse_radix (s : string) : option literal :=
  match s with
  | String "0" (String c r) =>
      match radix_of c with
      | Some b =>
          match digits b r with
          | ((_ :: _) as ds, EmptyString) => Some (LInteger b ds)
          | _ => None
          end
      | None => None
      end
  | _ => None
  end.

(** StrNumericLiteral. *)
Definition parse_literal (s : string) : option literal :=
  match parse_radix s with
  | Some l => Some l
  | None =>
      match s with
      | String "+" r => parse_unsigned false r
      | String "-" r => parse_unsigned true r
      | _ => parse_unsigned false s
      end
  end.


(** StringNumericValue, rounded to a Number. *)
Definition literal_value (l : literal) : number :=
  match l with
  | LInfinity neg => S754_infinity neg
  | LInteger b ds => round_ratio false (mv b ds) 1
  | LDecimal neg ip fp ex =>
      let m := mv 10 (ip ++ fp) in
      let e10 := ex - Z.of_nat (List.length fp) in
      if 0 <=? e10 then round_ratio neg (m * 10 ^ e10) 1
      else round_ratio neg m (10 ^ (- e10))
  end.

(** StringToNumber: white space is trimmed, the empty string is [+0], what
    is not a StrNumericLiteral is [NaN]. *)
Definition StringToNumber (s : string) : number :=
  match trim s with
  | EmptyString => S754_zero false
  | t =>
      match parse_literal t with
      | Some l => literal_value l
      | None => NaN
      end
  end.


(** *** Values *)

Inductive value : Type :=
| VUndefined
| VNull
| VBool (b : bool)
| VNumber (n : number)
| VBigInt (z : Z)
| VString (s : string)
| VArray (elems : list value)
| VObject (props : list (string * value))
| VError (name message : string).

(** The result of evaluating an expression: a value, or a throw. *)
Inductive completion (A : Type) : Type :=
| Normal (a : A)
| Abrupt (e : value).

Arguments Normal {A} a.
Arguments Abrupt {A} e.

(** What ToPrimitive throws when an object has no usable conversion method
    (the message is V8's). *)
Definition TypeError : value :=
  VError "TypeError" "Cannot convert object to primitive value".

(** What the query parser of Express puts under a key of [req.query]: a
    string, an array ([?a=1&a=2]) or a nested object ([?a[b]=1]). *)
Inductive qs : Type :=
| QStr (s : string)
| QArr (elems : list qs)
| QObj (props : list (string * qs)).

Fixpoint of_qs (q : qs) : value :=
  match q with
  | QStr s => VString s
  | QArr l => VArray (map of_qs l)
  | QObj o => VObject (map (fun '(k, v) => (k, of_qs v)) o)
  end.

(** [obj[k]] on an object given by its properties in insertion order;
    [None] is a missing property, which reads as [undefined]. *)
Fixpoint prop {A : Type} (k : string) (o : list (string * A)) : option A :=
  match o with
  | [] => None
  | (k', v) :: o' => if String.eqb k k' then Some v else prop k o'
  end.

(** [k in obj]. *)
Definition has_key {A : Type} (k : string) (o : list (string * A)) : bool :=
  existsb (fun kv => String.eqb k (fst kv)) o.

Definition or_undefined (o : option qs) : value :=
  match o with
  | Some q => of_qs q
  | None => VUndefined
  end.

(** The strings of a list of conversions, if none of them threw. *)
Fixpoint all_strings (l : list (option string)) : option (list string) :=
  match l with
  | [] => Some []
  | None :: _ => None
  | Some s :: l' =>
      match all_strings l' with
      | Some ss => Some (s :: ss)
      | None => None
      end
  end.

(** The string of a query value, as ToPrimitive finds it; [None] is a throw
    of [TypeError].  A string is itself.  An array goes through
    [Array.prototype.join]: its elements, converted in turn, with commas.
    An object goes through [Object.prototype.toString], which prints
    [[object Object]], unless it has a [toString] key of its own: what the
    parser put there is not a function, the inherited [valueOf] returns the
    object itself, and no method is left. *)
Fixpoint ToString (q : qs) : option string :=
  match q with
  | QStr s => Some s
  | QArr l => option_map (String.concat ",") (all_strings (map ToString l))
  | QObj o => if has_key "toString" o then None else Some "[object Object]"
  end.

(** A variable bound by [const { x = d } = req.query] holds the Number [d]
    of the default when the property is [undefined], the query value
    otherwise. *)
Inductive bound : Type :=
| Default (n : number)
| Query (q : qs).

Definition destructure (k : string) (d : number) (o : list (string * qs)) : bound :=
  match prop k o with
  | None => Default d
  | Some q => Query q
  end.

(** [Number(x)]: a Number is itself; a string goes through StringToNumber;
    an array or an object is first turned into a string (ToPrimitive), which
    can throw. *)
Definition Number (x : bound) : completion number :=
  match x with
  | Default n => Normal n
  | Query q =>
      match ToString q with
      | Some s => Normal (StringToNumber s)
      | None => Abrupt TypeError
      end
  end.

(** ToBoolean: [undefined], [null], [false], [+0], [-0], [NaN], [0n] and
    the empty string are falsy, everything else is truthy. *)
Definition ToBoolean (v : value) : bool :=
  match v with
  | VUndefined | VNull => false
  | VBool b => b
  | VNumber (S754_zero _) | VNumber S754_nan => false
  | VNumber _ => true
  | VBigInt z => negb (z =? 0)
  | VString s => negb (String.eqb s "")
  | VArray _ | VObject _ | VError _ _ => true
  end.

(** A string of white space only (the empty string included). *)
Fixpoint blank (s : string) : bool :=
  match s with
  | EmptyString => true
  | String c r => is_ws c && blank r
  end.

(** A string with a comma in it. *)
Fixpoint has_comma (s : string) : bool :=
  match s with
  | EmptyString => false
  | String c r => Ascii.eqb c "," || has_comma r
  end.

End JS.

(* ================================================================== *)
(** ** Async function bodies *)
(* ================================================================== *)

Module Async.
Import JS.

(** The two data-access modules ([require('./products')],
    [require('./orders')]) and the operations the handlers call on them. *)
Inductive resource : Type := Products | Orders.

Inductive call : Type :=
| c_list (options : value)
| c_get (id : value)
| c_create (fields : value)
| c_edit (id change : value)
| c_destroy (id : value).

(** How the promise of a call settles; [Pending] is a promise that never
    does.  A call that throws before returning a promise is [Rejected]: both
    reject the promise of the async function that awaits it. *)
Inductive settled : Type :=
| Fulfilled (v : value)
| Rejected (reason : value)
| Pending.

(** What a handler does to its response and to its continuation. *)
Inductive effect : Type :=
| EJson (v : value)
| ESendFile (path : string)
| ENext (args : list value).

(** The body of an async function: it returns, throws, stays suspended,
    calls a collaborator and goes on with the settlement, or acts on [res]
    or [next] and goes on. *)
Inductive prog (A : Type) : Type :=
| Ret (a : A)
| Throw (e : value)
| Hang
| Invoke (m : resource) (c : call) (k : settled -> prog A)
| Emit (e : effect) (k : prog A).

Arguments Ret {A} a.
Arguments Throw {A} e.
Arguments Hang {A}.
Arguments Invoke {A} m c k.
Arguments Emit {A} e k.

Fixpoint bind {A B : Type} (p : prog A) (f : A -> prog B) : prog B :=
  match p with
  | Ret a => f a
  | Throw e => Throw e
  | Hang => Hang
  | Invoke m c k => Invoke m c (fun s => bind (k s) f)
  | Emit e k => Emit e (bind k f)
  end.

Declare Scope prog_scope.
Delimit Scope prog_scope with prog.
Notation "x <- p ;; q" := (bind p (fun x => q))
  (at level 61, p at next level, right associativity) : prog_scope.
Notation "p ;;; q" := (bind p (fun _ => q))
  (at level 61, right associativity) : prog_scope.

(** [await m.op(args)]. *)
Definition await (m : resource) (c : call) : prog value :=
  Invoke m c (fun s =>
    match s with
    | Fulfilled v => Ret v
    | Rejected e => Throw e
    | Pending => Hang
    end).

Definition res_json (v : value) : prog unit := Emit (EJson v) (Ret tt).
Definition res_sendFile (p : string) : prog unit := Emit (ESendFile p) (Ret tt).
Definition next (args : list value) : prog unit := Emit (ENext args) (Ret tt).

(** An expression evaluated inside the body: a throw rejects the promise of
    the async function. *)
Definition eval {A : Type} (c : completion A) : prog A :=
  match c with
  | Normal a => Ret a
  | Abrupt e => Throw e
  end.

(** [promise.catch(h)]: a rejection runs [h] on its reason. *)
Fixpoint catch {A : Type} (p : prog A) (h : value -> prog A) : prog A :=
  match p with
  | Ret a => Ret a
  | Throw e => h e
  | Hang => Hang
  | Invoke m c k => Invoke m c (fun s => catch (k s) h)
  | Emit e k => Emit e (catch k h)
  end.

(** *** Runs *)

Inductive event : Type :=
| Called (m : resource) (c : call) (s : settled)
| Did (e : effect).

Inductive outcome (A : Type) : Type :=
| Done (a : A)
| Threw (e : value)
| Hung.

Arguments Done {A} a.
Arguments Threw {A} e.
Arguments Hung {A}.

Section Run.

(** The collaborators: a state, and how each call settles in it. *)
Variable world : Type.
Variable collab : resource -> call -> world -> settled * world.

Fixpoint run {A : Type} (p : prog A) (w : world) : list event * outcome A * world :=
  match p with
  | Ret a => ([], Done a, w)
  | Throw e => ([], Threw e, w)
  | Hang => ([], Hung, w)
  | Invoke m c k =>
      let (s, w1) := collab m c w in
      let '(tr, o, w2) := run (k s) w1 in
      (Called m c s :: tr, o, w2)
  | Emit e k =>
      let '(tr, o, w1) := run k w in
      (Did e :: tr, o, w1)
  end.

Definition trace {A : Type} (p : prog A) (w : world) : list event :=
  fst (fst (run p w)).

Definition result {A : Type} (p : prog A) (w : world) : outcome A :=
  snd (fst (run p w)).

End Run.

Arguments run {world} collab {A} p w.
Arguments trace {world} collab {A} p w.
Arguments result {world} collab {A} p w.

(** What a trace shows: the collaborator calls, the values given to
    [res.json], the argument lists given to [next]. *)
Fixpoint calls (tr : list event) : list (resource * call) :=
  match tr with
  | [] => []
  | Called m c _ :: tr' => (m, c) :: calls tr'
  | Did _ :: tr' => calls tr'
  end.

Fixpoint json_sent (tr : list event) : list value :=
  match tr with
  | [] => []
  | Did (EJson v) :: tr' => v :: json_sent tr'
  | _ :: tr' => json_sent tr'
  end.

Fixpoint next_calls (tr : list event) : list (list value) :=
  match tr with
  | [] => []
  | Did (ENext args) :: tr' => args :: next_calls tr'
  | _ :: tr' => next_calls tr'
  end.

(** Whether the response object was used at all ([res.json] or
    [res.sendFile]). *)
Fixpoint responded (tr : list event) : bool :=
  match tr with
  | [] => false
  | Did (EJson _) :: _ | Did (ESendFile _) :: _ => true
  | _ :: tr' => responded tr'
  end.

(** The bodies sent: [res.json(v)] sends [v] as serialised by [stringify]
    (Express applies [JSON.stringify]). *)
Definition bodies (stringify : value -> string) (tr : list event) : list string :=
  map stringify (json_sent tr).

(** Everything a trace shows being done to [res] and [next], in order. *)
Fixpoint effects (tr : list event) : list effect :=
  match tr with
  | [] => []
  | Did e :: tr' => e :: effects tr'
  | Called _ _ _ :: tr' => effects tr'
  end.

(** The property [k] of the options object of the first [list] call of a
    trace. *)
Fixpoint option_passed (k : string) (tr : list event) : option value :=
  match tr with
  | [] => None
  | Called _ (c_list (VObject o)) _ :: _ => prop k o
  | _ :: tr' => option_passed k tr'
  end.

End Async.

(* ================================================================== *)
(** ** The handlers of src/api.js *)
(* ================================================================== *)

Module Api.
Import JS Async.

(** What a handler reads of [req]: the parsed query, the route parameters
    and the parsed body. *)
Record request : Type := {
  query : list (string * qs);
  params : list (string * string);
  body : value
}.

(** [req.params.k]. *)
Definition param (k : string) (req : request) : value :=
  match prop k (params req) with
  | Some s => VString s
  | None => VUndefined
  end.

(** A handler is [(req, res, next) => ...]; [res] and [next] are the targets
    of its effects. *)
Definition handler : Type := request -> prog unit.

Local Open Scope prog_scope.

Section Handlers.

(** The directory of the module and Node's [path.join]. *)
Variable __dirname : string.
Variable path_join : string -> string -> string.

Definition handleRoot (req : request) : prog unit :=
  res_sendFile (path_join __dirname "/index.html").

Definition listProducts (req : request) : prog unit :=
  let offset := destructure "offset" (num_of_Z 0) (query req) in
  let limit := destructure "limit" (num_of_Z 25) (query req) in
  let tag := prop "tag" (query req) in
  offset_n <- eval (Number offset) ;;
  limit_n <- eval (Number limit) ;;
  products <- await Products (c_list (VObject [
    ("offset", VNumber offset_n);
    ("limit", VNumber limit_n);
    ("tag", or_undefined tag)
  ])) ;;
  res_json products.

Definition getProduct (req : request) : prog unit :=
  let id := param "id" req in
  product <- await Products (c_get id) ;;
  if negb (ToBoolean product) then next []
  else res_json product.

Definition createProduct (req : request) : prog unit :=
  product <- await Products (c_create (body req)) ;;
  res_json product.

Definition editProduct (req : request) : prog unit :=
  let change := body req in
  product <- await Products (c_edit (param "id" req) change) ;;
  res_json product.

Definition deleteProduct (req : request) : prog unit :=
  response <- await Products (c_destroy (param "id" req)) ;;
  res_json response.

Definition createOrder (req : request) : prog unit :=
  order <- await Orders (c_create (body req)) ;;
  res_json order.

Definition getOrder (req : request) : prog unit :=
  let id := param "id" req in
  order <- await Orders (c_get id) ;;
  if negb (ToBoolean order) then next []
  else res_json order.

Definition listOrders (req : request) : prog unit :=
  let offset := destructure "offset" (num_of_Z 0) (query req) in
  let limit := destructure "limit" (num_of_Z 25) (query req) in
  let productId := prop "productId" (query req) in
  let status := prop "status" (query req) in
  offset_n <- eval (Number offset) ;;
  limit_n <- eval (Number limit) ;;
  orders <- await Orders (c_list (VObject [
    ("offset", VNumber offset_n);
    ("limit", VNumber limit_n);
    ("productId", or_undefined productId);
    ("status", or_undefined status)
  ])) ;;
  res_json orders.

Definition editOrder (req : request) : prog unit :=
  let change := body req in
  order <- await Orders (c_edit (param "id" req) change) ;;
  res_json order.

Definition deleteOrder (req : request) : prog unit :=
  response <- await Orders (c_destroy (param "id" req)) ;;
  res_json response.

(** The object literal given to [autoCatch], in the order of the source. *)
Definition handlers : list (string * handler) := [
  ("handleRoot", handleRoot);
  ("listProducts", listProducts);
  ("getProduct", getProduct);
  ("createProduct", createProduct);
  ("editProduct", editProduct);
  ("deleteProduct", deleteProduct);
  ("createOrder", createOrder);
  ("listOrders", listOrders);
  ("editOrder", editOrder);
  ("deleteOrder", deleteOrder);
  ("getOrder", getOrder)
].

(** Modelled from the spec: [./lib/auto-catch] is not among the sources.
    The spec (4.2) has it map a table of handlers to a table with the same
    names, where each handler is invoked as before and, when its promise
    rejects, the reason is given to [next], once, and nothing is sent. *)
Definition autoCatch (hs : list (string * handler)) : list (string * handler) :=
  map (fun '(name, h) => (name, fun req => catch (h req) (fun e => next [e]))) hs.

(** [module.exports]. *)
Definition exports : list (string * handler) := autoCatch handlers.

End Handlers.

End Api.

(* ================================================================== *)
(** ** An in-memory collaborator *)
(* ================================================================== *)

Module Fixture.
Import JS Async.

(** One table per resource, from ids to records. *)
Definition table : Type := list (string * value).
Definition world : Type := (table * table)%type.

Definition table_of (m : resource) (w : world) : table :=
  match m with Products => fst w | Orders => snd w end.

Definition with_table (m : resource) (t : table) (w : world) : world :=
  match m with Products => (t, snd w) | Orders => (fst w, t) end.

Fixpoint remove (k : string) (t : table) : table :=
  match t with
  | [] => []
  | (k', v) :: t' => if String.eqb k k' then remove k t' else (k', v) :: remove k t'
  end.

(** The id given to the next record of a table. *)
Definition fresh (t : table) : string :=
  NilEmpty.string_of_uint (Nat.to_uint (List.length t)).

(** [list] rejects a NaN offset or limit and otherwise returns every record;
    [get] resolves to [null] for an unknown id; [create] stores an object,
    with a fresh [id], and rejects anything else; [edit] replaces a record;
    [destroy] removes one and reports whether it was there. *)
Definition collab (m : resource) (c : call) (w : world) : settled * world :=
  let t := table_of m w in
  match c with
  | c_list (VObject o) =>
      match prop "offset" o, prop "limit" o with
      | Some (VNumber S754_nan), _ | _, Some (VNumber S754_nan) =>
          (Rejected (VString "invalid page"), w)
      | _, _ => (Fulfilled (VArray (map snd t)), w)
      end
  | c_list _ => (Rejected (VString "invalid options"), w)
  | c_get (VString id) =>
      match prop id t with
      | Some v => (Fulfilled v, w)
      | None => (Fulfilled VNull, w)
      end
  | c_get _ => (Rejected (VString "invalid id"), w)
  | c_create (VObject o) =>
      let id := fresh t in
      let v := VObject (("id", VString id) :: o) in
      (Fulfilled v, with_table m ((t ++ [(id, v)])%list) w)
  | c_create _ => (Rejected (VString "invalid fields"), w)
  | c_edit (VString id) change =>
      match prop id t with
      | Some _ => (Fulfilled change, with_table m ((id, change) :: remove id t) w)
      | None => (Fulfilled VNull, w)
      end
  | c_edit _ _ => (Rejected (VString "invalid id"), w)
  | c_destroy (VString id) =>
      (Fulfilled (VBool (has_key id t)), with_table m (remove id t) w)
  | c_destroy _ => (Rejected (VString "invalid id"), w)
  end.

(** A collaborator whose promises never settle. *)
Definition stalled (m : resource) (c : call) (w : world) : settled * world :=
  (Pending, w).

Definition shoe : value :=
  VObject [("id", VString "7"); ("tags", VArray [VString "shoes"])].

Definition stocked : world := ([("7", shoe)], []).

Definition req0 : Api.request :=
  {| Api.query := []; Api.params := []; Api.body := VUndefined |}.

Definition with_query (q : list (string * qs)) : Api.request :=
  {| Api.query := q; Api.params := []; Api.body := VUndefined |}.

Definition with_id (id : string) (b : value) : Api.request :=
  {| Api.query := []; Api.params := [("id", id)]; Api.body := b |}.



(** A query object with a [toString] key of its own ([?limit[toString]=x]),
    and requests that carry it. *)
Definition poison : qs := QObj [("toString", QStr "x")].

Definition no_offset_bad_limit : Api.request :=
  with_query [("limit", poison)].


Definition bad_offset_empty_limit : Api.request :=
  with_query [("offset", poison); ("limit", QStr "")].

Definition bad_offset : Api.request :=
  with_query [("offset", poison)].

End Fixture.

(* ================================================================== *)
(** ** Properties of [Number] *)
(* ================================================================== *)

Module NumberFacts.
Import JS.

(** *** Rounding never produces NaN *)







(** *** Parsed literals are well formed *)










End NumberFacts.

(* ================================================================== *)
(** ** Properties *)
(* ================================================================== *)

Import JS Async Api.

(** *** Runs of the two shapes of handler bodies *)

Section Shapes.

Variable world : Type.
Variable collab : resource -> call -> world -> settled * world.

(** [res.json(await m.op(...))]. *)
Lemma run_await_json (m : resource) (c : call) (w : world) :
  run collab (bind (await m c) res_json) w =
  match collab m c w with
  | (Fulfilled v, w1) => ([Called m c (Fulfilled v); Did (EJson v)], Done tt, w1)
  | (Rejected e, w1) => ([Called m c (Rejected e)], Threw e, w1)
  | (Pending, w1) => ([Called m c Pending], Hung, w1)
  end.
Proof.
  cbn. destruct (collab m c w) as [[v | e | ] w1]; reflexivity.
Qed.

(** [x = await m.get(id); if (!x) return next(); return res.json(x)]. *)
Lemma run_await_found (m : resource) (c : call) (w : world) :
  run collab
    (bind (await m c)
       (fun x => if negb (ToBoolean x) then next [] else res_json x)) w =
  match collab m c w with
  | (Fulfilled v, w1) =>
      ([Called m c (Fulfilled v);
        Did (if ToBoolean v then EJson v else ENext [])], Done tt, w1)
  | (Rejected e, w1) => ([Called m c (Rejected e)], Threw e, w1)
  | (Pending, w1) => ([Called m c Pending], Hung, w1)
  end.
Proof.
  cbn. destruct (collab m c w) as [[v | e | ] w1]; try reflexivity.
  cbn. destruct (ToBoolean v); reflexivity.
Qed.

(** A run that does not throw is not changed by [catch]. *)
Lemma run_catch_quiet {A : Type} (p : prog A) (h : value -> prog A) (w : world) :
  (forall e, result collab p w <> Threw e) ->
  run collab (catch p h) w = run collab p w.
Proof.
  unfold result. revert w.
  induction p as [a | e | | m c k IH | e k IH]; intros w Hq; cbn in *.
  - reflexivity.
  - exfalso. apply (Hq e). reflexivity.
  - reflexivity.
  - destruct (collab m c w) as [s w1].
    rewrite IH.
    + reflexivity.
    + intros e He. apply (Hq e).
      destruct (run collab (k s) w1) as [[tr o] w2]. exact He.
  - rewrite IH.
    + reflexivity.
    + intros e' He. apply (Hq e').
      destruct (run collab k w) as [[tr o] w1]. exact He.
Qed.

(** A run that throws [e] goes on, under [catch], with the handler. *)
Lemma run_catch_thrown {A : Type} (p : prog A) (h : value -> prog A) (w : world) :
  forall tr e w1,
    run collab p w = (tr, Threw e, w1) ->
    run collab (catch p h) w =
    let '(tr', o, w2) := run collab (h e) w1 in ((tr ++ tr')%list, o, w2).
Proof.
  revert w.
  induction p as [a | e0 | | m c k IH | e0 k IH]; intros w tr e w1 Hr; cbn in *.
  - discriminate.
  - injection Hr as <- <- <-.
    destruct (run collab (h e0) w) as [[tr' o] w2]. reflexivity.
  - discriminate.
  - destruct (collab m c w) as [s w0].
    destruct (run collab (k s) w0) as [[tr0 o0] w3] eqn:Hk.
    injection Hr as <- -> ->.
    rewrite (IH s w0 tr0 e w1 Hk).
    destruct (run collab (h e) w1) as [[tr' o] w2]. reflexivity.
  - destruct (run collab k w) as [[tr0 o0] w3] eqn:Hk.
    injection Hr as <- -> ->.
    rewrite (IH w tr0 e w1 Hk).
    destruct (run collab (h e) w1) as [[tr' o] w2]. reflexivity.
Qed.

End Shapes.


(* ================================================================== *)
(** ** Properties of the coercion of query values *)
(* ================================================================== *)

Module CoercionFacts.
Import JS.

(** *** White space *)

Lemma trim_left_blank (s : string) :
  blank s = true -> trim_left s = EmptyString.
Proof.
  induction s as [ | c r IH]; cbn [blank trim_left]; [ reflexivity | ].
  destruct (is_ws c); [ exact IH | discriminate ].
Qed.

Lemma trim_blank (s : string) :
  blank s = true -> trim s = EmptyString.
Proof.
  intros H. unfold trim. rewrite (trim_left_blank s H). reflexivity.
Qed.

(** A string that does not start with white space. *)
Lemma trim_left_clean (s : string) :
  match s with EmptyString => True | String c _ => is_ws c = false end ->
  trim_left s = s.
Proof.
  destruct s as [ | c r]; cbn [trim_left]; [ reflexivity | ].
  intros ->. reflexivity.
Qed.

Lemma trim_left_starts_clean (s : string) :
  match trim_left s with EmptyString => True | String c _ => is_ws c = false end.
Proof.
  induction s as [ | c r IH]; cbn [trim_left]; [ exact I | ].
  destruct (is_ws c) eqn:E; [ exact IH | exact E ].
Qed.

Lemma trim_right_starts_clean (s : string) :
  match s with EmptyString => True | String c _ => is_ws c = false end ->
  match trim_right s with EmptyString => True | String c _ => is_ws c = false end.
Proof.
  destruct s as [ | c r]; cbn [trim_right]; [ trivial | ].
  intros E. destruct (trim_right r); [ rewrite E | ]; exact E.
Qed.

Lemma trim_right_idem (s : string) :
  trim_right (trim_right s) = trim_right s.
Proof.
  induction s as [ | c r IH]; cbn [trim_right]; [ reflexivity | ].
  destruct (trim_right r) as [ | d u] eqn:E.
  - destruct (is_ws c) eqn:Ec; cbn [trim_right]; [ reflexivity | ].
    rewrite Ec. reflexivity.
  - cbn [trim_right] in *. rewrite IH. reflexivity.
Qed.

Lemma trim_idem (s : string) : trim (trim s) = trim s.
Proof.
  unfold trim.
  rewrite (trim_left_clean (trim_right (trim_left s))).
  - apply trim_right_idem.
  - apply trim_right_starts_clean, trim_left_starts_clean.
Qed.

Lemma StringToNumber_trim (s : string) :
  StringToNumber (trim s) = StringToNumber s.
Proof.
  unfold StringToNumber. rewrite trim_idem. reflexivity.
Qed.

(** *** Commas *)

Lemma digit_of_not_comma (b : Z) (c : ascii) (d : Z) :
  digit_of b c = Some d -> Ascii.eqb c "," = false.
Proof.
  destruct (Ascii.eqb_spec c ","%char) as [-> | Hc]; [ | reflexivity ].
  unfold digit_of. cbn. rewrite Z.ltb_irrefl. discriminate.
Qed.

Lemma is_ws_not_comma (c : ascii) :
  is_ws c = true -> Ascii.eqb c "," = false.
Proof.
  destruct (Ascii.eqb_spec c ","%char) as [-> | Hc]; [ | reflexivity ].
  cbn. discriminate.
Qed.

Lemma has_comma_nonempty (s : string) :
  has_comma s = true -> s <> EmptyString.
Proof. destruct s; [ discriminate | discriminate ]. Qed.

Lemma has_comma_app (a b : string) :
  has_comma (a ++ b) = has_comma a || has_comma b.
Proof.
  induction a as [ | c r IH]; cbn [append has_comma orb]; [ reflexivity | ].
  rewrite IH. apply orb_assoc.
Qed.

Lemma digits_keep_comma (b : Z) (s : string) :
  has_comma s = true -> has_comma (snd (digits b s)) = true.
Proof.
  induction s as [ | c r IH]; cbn [digits has_comma]; [ discriminate | ].
  destruct (digit_of b c) as [d | ] eqn:E.
  - rewrite (digit_of_not_comma b c d E). cbn [orb]. intros H.
    specialize (IH H). destruct (digits b r) as [ds rest]. exact IH.
  - intros H. exact H.
Qed.

Lemma trim_left_keeps_comma (s : string) :
  has_comma s = true -> has_comma (trim_left s) = true.
Proof.
  induction s as [ | c r IH]; cbn [trim_left has_comma]; [ discriminate | ].
  destruct (is_ws c) eqn:E.
  - rewrite (is_ws_not_comma c E). exact IH.
  - intros H. exact H.
Qed.

Lemma trim_right_keeps_comma (s : string) :
  has_comma s = true -> has_comma (trim_right s) = true.
Proof.
  induction s as [ | c r IH]; cbn [trim_right has_comma]; [ discriminate | ].
  destruct (Ascii.eqb_spec c ","%char) as [-> | Hc]; cbn [orb].
  - intros _. destruct (trim_right r); reflexivity.
  - intros H. specialize (IH H).
    destruct (trim_right r) as [ | d u]; [ discriminate | ].
    cbn [has_comma] in IH |- *. rewrite IH. apply orb_true_r.
Qed.

Lemma parse_exponent_comma (s : string) :
  has_comma s = true -> parse_exponent s = None.
Proof.
  destruct s as [ | c r]; [ discriminate | ].
  cbn [has_comma parse_exponent].
  destruct (is_e c) eqn:Ee; [ | reflexivity ].
  assert (Hc : Ascii.eqb c "," = false).
  { destruct (Ascii.eqb_spec c ","%char) as [-> | ]; [ discriminate | reflexivity ]. }
  rewrite Hc. cbn [orb]. intros Hr.
  assert (Hsign : forall (neg : bool) (t : string),
             has_comma t = true ->
             match digits 10 t with
             | ((_ :: _) as ds, EmptyString) =>
                 Some (if neg then - mv 10 ds else mv 10 ds)
             | _ => None
             end = None).
  { intros neg t Ht. pose proof (digits_keep_comma 10 t Ht) as Hk.
    destruct (digits 10 t) as [[ | d ds] [ | c' rest]];
      try reflexivity; discriminate. }
  destruct r as [ | c2 t]; [ discriminate | ].
  cbn [has_comma] in Hr.
  destruct (Ascii.eqb_spec c2 ","%char) as [-> | Hc2].
  - cbv beta iota. apply (Hsign false). reflexivity.
  - cbn [orb] in Hr.
    assert (Ht : has_comma (String c2 t) = true).
    { cbn [has_comma]. rewrite Hr. apply orb_true_r. }
    destruct c2 as [[ | ] [ | ] [ | ] [ | ] [ | ] [ | ] [ | ] [ | ]];
      cbv beta iota;
      first [ apply (Hsign false _ Ht) | apply (Hsign true _ Hr)
            | apply (Hsign false _ Hr) ].
Qed.

Lemma parse_unsigned_comma (neg : bool) (s : string) :
  has_comma s = true -> parse_unsigned neg s = None.
Proof.
  intros H. unfold parse_unsigned.
  destruct (String.eqb_spec s "Infinity") as [-> | _]; [ discriminate | ].
  pose proof (digits_keep_comma 10 s H) as H1.
  destruct (digits 10 s) as [ip r1]. cbn [snd] in H1.
  assert (Hplain : match ip with
                   | [] => None
                   | _ :: _ => option_map (LDecimal neg ip []) (parse_exponent r1)
                   end = None).
  { rewrite (parse_exponent_comma r1 H1). destruct ip; reflexivity. }
  destruct r1 as [ | c r2]; [ discriminate | ].
  destruct (Ascii.eqb_spec c "."%char) as [-> | Hc].
  - assert (H2 : has_comma r2 = true) by exact H1.
    pose proof (digits_keep_comma 10 r2 H2) as H3.
    destruct (digits 10 r2) as [fp r3]. cbn [snd] in H3.
    rewrite (parse_exponent_comma r3 H3).
    destruct ip, fp; reflexivity.
  - destruct c as [[ | ] [ | ] [ | ] [ | ] [ | ] [ | ] [ | ] [ | ]];
      try exact Hplain; exfalso; apply Hc; reflexivity.
Qed.

Lemma parse_radix_comma (s : string) :
  has_comma s = true -> parse_radix s = None.
Proof.
  intros H. unfold parse_radix.
  destruct s as [ | c0 [ | c r]]; try reflexivity;
    destruct c0 as [[ | ] [ | ] [ | ] [ | ] [ | ] [ | ] [ | ] [ | ]];
    try reflexivity.
  cbn [has_comma Ascii.eqb Bool.eqb andb orb] in H.
  destruct (radix_of c) as [b | ] eqn:Eb; [ | reflexivity ].
  assert (Hc : Ascii.eqb c "," = false).
  { destruct (Ascii.eqb_spec c ","%char) as [-> | ]; [ discriminate | reflexivity ]. }
  rewrite Hc in H. cbn [orb] in H.
  pose proof (digits_keep_comma b r H) as Hk.
  destruct (digits b r) as [[ | d ds] [ | c' rest]];
    try reflexivity; discriminate.
Qed.

Lemma parse_literal_comma (s : string) :
  has_comma s = true -> parse_literal s = None.
Proof.
  intros H. unfold parse_literal.
  rewrite (parse_radix_comma s H).
  destruct s as [ | c r]; [ discriminate | ].
  pose proof (parse_unsigned_comma false (String c r) H) as Hwhole.
  cbn [has_comma] in H.
  destruct (Ascii.eqb_spec c ","%char) as [-> | Hc]; [ exact Hwhole | ].
  cbn [orb] in H.
  destruct c as [[ | ] [ | ] [ | ] [ | ] [ | ] [ | ] [ | ] [ | ]];
    first [ exact Hwhole | apply parse_unsigned_comma; exact H ].
Qed.

(** A string with a comma is not numeric. *)
Lemma StringToNumber_comma (s : string) :
  has_comma s = true -> StringToNumber s = NaN.
Proof.
  intros H. unfold StringToNumber, trim.
  pose proof (trim_right_keeps_comma _ (trim_left_keeps_comma s H)) as Ht.
  destruct (trim_right (trim_left s)) as [ | c t] eqn:E; [ discriminate | ].
  rewrite (parse_literal_comma _ Ht). reflexivity.
Qed.

(** Two elements or more join with a comma. *)
Lemma ToString_array_comma (q1 q2 : qs) (l : list qs) (s : string) :
  ToString (QArr (q1 :: q2 :: l)) = Some s -> has_comma s = true.
Proof.
  cbn [ToString map all_strings].
  destruct (ToString q1) as [a | ]; [ | discriminate ].
  destruct (ToString q2) as [b | ]; [ | discriminate ].
  destruct (all_strings (map ToString l)) as [ss | ]; [ | discriminate ].
  cbn [option_map String.concat]. intros [= <-].
  rewrite has_comma_app. cbn [append has_comma Ascii.eqb Bool.eqb].
  apply orb_true_r.
Qed.

(** An array of one element converts as its element does. *)
Lemma ToString_singleton (q : qs) :
  ToString (QArr [q]) = ToString q.
Proof.
  cbn [ToString map all_strings].
  destruct (ToString q) as [s | ]; reflexivity.
Qed.

(** [Number] of a string never throws. *)
Lemma Number_string (s : string) :
  Number (Query (QStr s)) = Normal (StringToNumber s).
Proof. reflexivity. Qed.

(** [Number] throws nothing but the TypeError of ToPrimitive. *)
Lemma Number_throws_TypeError (x : bound) (e : value) :
  Number x = Abrupt e -> e = TypeError.
Proof.
  destruct x as [n | q]; cbn [Number]; [ discriminate | ].
  destruct (ToString q); [ discriminate | ]. intros [= <-]. reflexivity.
Qed.

End CoercionFacts.
(** *** The handlers *)

Section Properties.

Variable world : Type.
Variable collab : resource -> call -> world -> settled * world.

(** Express's [res.json] serialisation ([JSON.stringify]). *)
Variable stringify : value -> string.

(** Unfolds a handler body down to the settlement of its collaborator call
    and splits on it. *)
Ltac step_run :=
  unfold trace, result, bodies;
  cbn [run bind await catch res_json res_sendFile next fst snd
       calls json_sent next_calls responded map];
  repeat match goal with
    | |- context [collab ?m ?c ?w] =>
        let E := fresh "Hcall" in
        destruct (collab m c w) as [[? | ? | ] ?] eqn:E;
        cbn [run bind await catch res_json res_sendFile next fst snd
             calls json_sent next_calls responded map]
    end.

(** A list handler coerces the offset, then the limit, and throws what the
    coercion throws; only then does it call [list]. *)
Lemma run_listProducts (req : request) (w : world) :
  run collab (listProducts req) w =
  match Number (destructure "offset" (num_of_Z 0) (query req)) with
  | Abrupt e => ([], Threw e, w)
  | Normal o =>
      match Number (destructure "limit" (num_of_Z 25) (query req)) with
      | Abrupt e => ([], Threw e, w)
      | Normal l =>
          run collab
            (bind (await Products (c_list (VObject [
               ("offset", VNumber o);
               ("limit", VNumber l);
               ("tag", or_undefined (prop "tag" (query req)))])))
               res_json) w
      end
  end.
Proof.
  unfold listProducts.
  destruct (Number (destructure "offset" _ _)) as [o | e]; [ | reflexivity ].
  destruct (Number (destructure "limit" _ _)) as [l | e]; reflexivity.
Qed.

Lemma run_listOrders (req : request) (w : world) :
  run collab (listOrders req) w =
  match Number (destructure "offset" (num_of_Z 0) (query req)) with
  | Abrupt e => ([], Threw e, w)
  | Normal o =>
      match Number (destructure "limit" (num_of_Z 25) (query req)) with
      | Abrupt e => ([], Threw e, w)
      | Normal l =>
          run collab
            (bind (await Orders (c_list (VObject [
               ("offset", VNumber o);
               ("limit", VNumber l);
               ("productId", or_undefined (prop "productId" (query req)));
               ("status", or_undefined (prop "status" (query req)))])))
               res_json) w
      end
  end.
Proof.
  unfold listOrders.
  destruct (Number (destructure "offset" _ _)) as [o | e]; [ | reflexivity ].
  destruct (Number (destructure "limit" _ _)) as [l | e]; reflexivity.
Qed.

(** When both coercions complete, a list handler makes one call, with the
    options object of the source. *)
Lemma list_handlers_call (req : request) (w : world) (o l : number) :
  Number (destructure "offset" (num_of_Z 0) (query req)) = Normal o ->
  Number (destructure "limit" (num_of_Z 25) (query req)) = Normal l ->
  calls (trace collab (listProducts req) w) =
    [(Products, c_list (VObject [
        ("offset", VNumber o);
        ("limit", VNumber l);
        ("tag", or_undefined (prop "tag" (query req)))]))]
  /\ calls (trace collab (listOrders req) w) =
    [(Orders, c_list (VObject [
        ("offset", VNumber o);
        ("limit", VNumber l);
        ("productId", or_undefined (prop "productId" (query req)));
        ("status", or_undefined (prop "status" (query req)))]))].
Proof.
  intros Ho Hl. unfold trace.
  rewrite run_listProducts, run_listOrders, Ho, Hl, !run_await_json.
  split;
    match goal with
    | |- context [collab ?m ?c w] => destruct (collab m c w) as [[v | e | ] w1]
    end; reflexivity.
Qed.



(** C2, amended. When the query has no offset and the coercion of its limit
    completes, a list handler calls [list] with offset 0; when it has no
    limit and the coercion of its offset completes, with limit 25. *)
Theorem list_defaults :
  forall (req : request) (w : world) (k k' : string) (d d' : Z) (n : number),
    (k, d, k', d') = ("offset", 0, "limit", 25)
    \/ (k, d, k', d') = ("limit", 25, "offset", 0) ->
    prop k (query req) = None ->
    Number (destructure k' (num_of_Z d') (query req)) = Normal n ->
    exists po oo : list (string * value),
      calls (trace collab (listProducts req) w) = [(Products, c_list (VObject po))]
      /\ calls (trace collab (listOrders req) w) = [(Orders, c_list (VObject oo))]
      /\ prop k po = Some (VNumber (num_of_Z d))
      /\ prop k oo = Some (VNumber (num_of_Z d)).
Proof.
  intros req w k k' d d' n Hk Hnone Hn.
  destruct Hk as [[= -> -> -> ->] | [= -> -> -> ->]].
  - assert (Ho : Number (destructure "offset" (num_of_Z 0) (query req)) =
                 Normal (num_of_Z 0)).
    { unfold destructure. rewrite Hnone. reflexivity. }
    destruct (list_handlers_call req w _ _ Ho Hn) as [Hp Hq].
    eexists. eexists. split; [ exact Hp | split; [ exact Hq | ] ].
    split; reflexivity.
  - assert (Hl : Number (destructure "limit" (num_of_Z 25) (query req)) =
                 Normal (num_of_Z 25)).
    { unfold destructure. rewrite Hnone. reflexivity. }
    destruct (list_handlers_call req w _ _ Hn Hl) as [Hp Hq].
    eexists. eexists. split; [ exact Hp | split; [ exact Hq | ] ].
    split; reflexivity.
Qed.

(** C3. When [get] resolves to a falsy value, [getProduct] and [getOrder]
    call [next()] without argument and never use [res.json]; so for
    GET /products/42 when [get('42')] resolves to [null]. *)
Theorem get_absent_defers_to_next :
  forall (req : request) (w w1 : world) (m : resource) (v : value),
    collab m (c_get (param "id" req)) w = (Fulfilled v, w1) ->
    ToBoolean v = false ->
    let h := match m with Products => getProduct | Orders => getOrder end in
    calls (trace collab (h req) w) = [(m, c_get (param "id" req))]
    /\ next_calls (trace collab (h req) w) = [[]]
    /\ json_sent (trace collab (h req) w) = []
    /\ responded (trace collab (h req) w) = false
    /\ result collab (h req) w = Done tt.
Proof.
  intros req w w1 m v Hc Hv h.
  assert (Hrun : run collab (h req) w =
                 ([Called m (c_get (param "id" req)) (Fulfilled v); Did (ENext [])],
                  Done tt, w1)).
  { destruct m; subst h; unfold getProduct, getOrder;
      rewrite run_await_found, Hc, Hv; reflexivity. }
  unfold trace, result. rewrite Hrun. cbn. repeat split; reflexivity.
Qed.




(** C8, amended. When the coercions of offset and limit complete, the
    options object a list handler gives to [list] has its filter keys: [tag]
    for products, [productId] and [status] for orders; a filter missing
    from the query is there with the value [undefined]. *)
Theorem list_options_keep_filter_keys :
  forall (req : request) (w : world) (o l : number),
    Number (destructure "offset" (num_of_Z 0) (query req)) = Normal o ->
    Number (destructure "limit" (num_of_Z 25) (query req)) = Normal l ->
    exists po oo : list (string * value),
      calls (trace collab (listProducts req) w) = [(Products, c_list (VObject po))]
      /\ calls (trace collab (listOrders req) w) = [(Orders, c_list (VObject oo))]
      /\ has_key "tag" po = true
      /\ has_key "productId" oo = true
      /\ has_key "status" oo = true
      /\ (prop "tag" (query req) = None -> prop "tag" po = Some VUndefined)
      /\ (prop "productId" (query req) = None -> prop "productId" oo = Some VUndefined)
      /\ (prop "status" (query req) = None -> prop "status" oo = Some VUndefined).
Proof.
  intros req w o l Ho Hl.
  destruct (list_handlers_call req w o l Ho Hl) as [Hp Hq].
  eexists. eexists. split; [ exact Hp | split; [ exact Hq | ] ].
  repeat split; try reflexivity; intros H; cbn; rewrite H; reflexivity.
Qed.


(** C10, amended. When the offset or the limit of the query is the empty
    string and the coercion of the other one completes, the default is not
    used: a list handler calls [list] with [Number('')], which is 0; an
    empty limit gives limit 0, not 25. *)
Theorem list_empty_string_is_zero :
  forall (req : request) (w : world) (k k' : string) (d' : Z) (n : number),
    (k, k', d') = ("offset", "limit", 25) \/ (k, k', d') = ("limit", "offset", 0) ->
    prop k (query req) = Some (QStr "") ->
    Number (destructure k' (num_of_Z d') (query req)) = Normal n ->
    exists po oo : list (string * value),
      calls (trace collab (listProducts req) w) = [(Products, c_list (VObject po))]
      /\ calls (trace collab (listOrders req) w) = [(Orders, c_list (VObject oo))]
      /\ prop k po = Some (VNumber (num_of_Z 0))
      /\ prop k oo = Some (VNumber (num_of_Z 0))
      /\ num_of_Z 0 <> num_of_Z 25.
Proof.
  intros req w k k' d' n Hk He Hn.
  assert (Hne : num_of_Z 0 <> num_of_Z 25) by (vm_compute; discriminate).
  destruct Hk as [[= -> -> ->] | [= -> -> ->]].
  - assert (Ho : Number (destructure "offset" (num_of_Z 0) (query req)) =
                 Normal (num_of_Z 0)).
    { unfold destructure. rewrite He. reflexivity. }
    destruct (list_handlers_call req w _ _ Ho Hn) as [Hp Hq].
    eexists. eexists. split; [ exact Hp | split; [ exact Hq | ] ].
    repeat split; try reflexivity; exact Hne.
  - assert (Hl : Number (destructure "limit" (num_of_Z 25) (query req)) =
                 Normal (num_of_Z 0)).
    { unfold destructure. rewrite He. reflexivity. }
    destruct (list_handlers_call req w _ _ Hn Hl) as [Hp Hq].
    eexists. eexists. split; [ exact Hp | split; [ exact Hq | ] ].
    repeat split; try reflexivity; exact Hne.
Qed.

(** Splits on the coercions and on the settlement of the call, in a
    hypothesis and in the goal. *)
Ltac forwarded :=
  intros req w; split;
  [ intros m c E; unfold trace;
    cbn [run bind await eval catch res_json res_sendFile next fst snd
         calls json_sent next_calls responded map];
    repeat match goal with
      | |- context [Number ?x] =>
          destruct (Number x);
          cbn [run bind await eval catch res_json res_sendFile next fst snd
               calls json_sent next_calls responded map]
      end;
    step_run; cbn [In];
    repeat match goal with
      | |- context [ToBoolean ?v] =>
          destruct (ToBoolean v);
          cbn [run bind await catch res_json res_sendFile next fst snd negb
               calls json_sent next_calls responded map In]
      end;
    intros H;
    repeat match goal with
      | H : _ \/ _ |- _ => destruct H as [H | H]
      | H : False |- _ => destruct H
      | H : @eq event _ _ |- _ =>
          first [ discriminate H
                | injection H as <- <- <-; split; reflexivity ]
      end
  | intros a Ha;
    match goal with
    | |- _ = run collab ?p w =>
        apply (run_catch_quiet world collab p (fun e => next [e]) w)
    end;
    intros e He; rewrite He in Ha; discriminate ].

(** C4. For a handler of [module.exports], wrapped by the adapter: when a
    collaborator call is rejected with reason [E], [next] is called once,
    with [E], and neither [res.json] nor [res.sendFile] is; and when the
    handler it wraps succeeds, the wrapped handler, which has the same
    signature, runs exactly as it does. *)
Theorem autoCatch_forwards_rejections :
  forall (dir : string) (path_join : string -> string -> string)
         (name : string) (wrapped : handler),
    In (name, wrapped) (exports dir path_join) ->
    exists h : handler,
      In (name, h) (handlers dir path_join)
      /\ forall (req : request) (w : world),
           (forall (m : resource) (c : call) (E : value),
              In (Called m c (Rejected E)) (trace collab (wrapped req) w) ->
              next_calls (trace collab (wrapped req) w) = [[E]]
              /\ responded (trace collab (wrapped req) w) = false)
           /\ (forall a : unit,
                 result collab (h req) w = Done a ->
                 run collab (wrapped req) w = run collab (h req) w).
Proof.
  intros dir pj name wrapped Hin.
  unfold exports, autoCatch, handlers in Hin. cbn [map In] in Hin.
  repeat match goal with
    | H : _ \/ _ |- _ => destruct H as [H | H]
    | H : False |- _ => destruct H
    end;
    injection Hin as <- <-;
    eexists; (split; [ unfold handlers; cbn [In]; auto 12 | ]).
  - unfold handleRoot. forwarded.
  - unfold listProducts. forwarded.
  - unfold getProduct. forwarded.
  - unfold createProduct. forwarded.
  - unfold editProduct. forwarded.
  - unfold deleteProduct. forwarded.
  - unfold createOrder. forwarded.
  - unfold listOrders. forwarded.
  - unfold editOrder. forwarded.
  - unfold deleteOrder. forwarded.
  - unfold getOrder. forwarded.
Qed.

End Properties.

(** *** The properties on the in-memory collaborator *)

Import Fixture.


Lemma list_defaults_witness :
  (("limit", 25, "offset", 0) = ("offset", 0, "limit", 25)
   \/ ("limit", 25, "offset", 0) = ("limit", 25, "offset", 0))
  /\ prop "limit" (query req0) = None
  /\ Number (destructure "offset" (num_of_Z 0) (query req0)) = Normal (num_of_Z 0)
  /\ exists po oo : list (string * value),
       calls (trace collab (listProducts req0) stocked) = [(Products, c_list (VObject po))]
       /\ calls (trace collab (listOrders req0) stocked) = [(Orders, c_list (VObject oo))]
       /\ prop "limit" po = Some (VNumber (num_of_Z 25))
       /\ prop "limit" oo = Some (VNumber (num_of_Z 25)).
Proof.
  split; [ right; reflexivity | split; [ reflexivity | split; [ reflexivity | ] ] ].
  apply (list_defaults world collab req0 stocked "limit" "offset" 25 0 (num_of_Z 0));
    [ right; reflexivity | reflexivity | reflexivity ].
Defined.

(** The request of C2's counterexample has no offset, and a limit whose
    coercion throws: no [list] call is made. *)
Lemma list_defaults_counterexample :
  prop "offset" (query no_offset_bad_limit) = None
  /\ calls (trace collab (listProducts no_offset_bad_limit) stocked) = []
  /\ calls (trace collab (listOrders no_offset_bad_limit) stocked) = []
  /\ result collab (listProducts no_offset_bad_limit) stocked = Threw TypeError
  /\ result collab (listOrders no_offset_bad_limit) stocked = Threw TypeError
  /\ ~ (exists po : list (string * value),
          calls (trace collab (listProducts no_offset_bad_limit) stocked) =
            [(Products, c_list (VObject po))]
          /\ prop "offset" po = Some (VNumber (num_of_Z 0))).
Proof.
  repeat split; try reflexivity.
  intros (po & Hc & _). discriminate Hc.
Qed.

Lemma get_absent_defers_to_next_witness :
  let req := with_id "42" VUndefined in
  collab Products (c_get (param "id" req)) stocked = (Fulfilled VNull, stocked)
  /\ ToBoolean VNull = false
  /\ next_calls (trace collab (getProduct req) stocked) = [[]]
  /\ json_sent (trace collab (getProduct req) stocked) = [].
Proof.
  intros req.
  split; [ reflexivity | split; [ reflexivity | ] ].
  destruct (get_absent_defers_to_next world collab req stocked stocked
              Products VNull eq_refl eq_refl) as (_ & Hn & Hj & _).
  split; [ exact Hn | exact Hj ].
Defined.





Lemma list_options_keep_filter_keys_witness :
  Number (destructure "offset" (num_of_Z 0) (query req0)) = Normal (num_of_Z 0)
  /\ Number (destructure "limit" (num_of_Z 25) (query req0)) = Normal (num_of_Z 25)
  /\ prop "tag" (query req0) = None
  /\ exists po : list (string * value),
       calls (trace collab (listProducts req0) stocked) = [(Products, c_list (VObject po))]
       /\ has_key "tag" po = true
       /\ prop "tag" po = Some VUndefined.
Proof.
  split; [ reflexivity | split; [ reflexivity | split; [ reflexivity | ] ] ].
  destruct (list_options_keep_filter_keys world collab req0 stocked _ _ eq_refl eq_refl)
    as (po & oo & Hp & _ & Hk & _ & _ & Ht & _).
  exists po. split; [ exact Hp | split; [ exact Hk | exact (Ht eq_refl) ] ].
Defined.

(** The request of C8's counterexample has an offset whose coercion throws:
    no options object is passed at all. *)
Lemma list_options_keep_filter_keys_counterexample :
  calls (trace collab (listProducts bad_offset) stocked) = []
  /\ calls (trace collab (listOrders bad_offset) stocked) = []
  /\ result collab (listProducts bad_offset) stocked = Threw TypeError
  /\ result collab (listOrders bad_offset) stocked = Threw TypeError
  /\ ~ (exists po : list (string * value),
          calls (trace collab (listProducts bad_offset) stocked) =
            [(Products, c_list (VObject po))]
          /\ has_key "tag" po = true)
  /\ ~ (exists oo : list (string * value),
          calls (trace collab (listOrders bad_offset) stocked) =
            [(Orders, c_list (VObject oo))]
          /\ has_key "productId" oo = true
          /\ has_key "status" oo = true).
Proof.
  repeat split; try reflexivity.
  - intros (po & Hc & _). discriminate Hc.
  - intros (oo & Hc & _). discriminate Hc.
Qed.


Lemma list_empty_string_is_zero_witness :
  let req := with_query [("limit", QStr "")] in
  (("limit", "offset", 0) = ("offset", "limit", 25)
   \/ ("limit", "offset", 0) = ("limit", "offset", 0))
  /\ prop "limit" (query req) = Some (QStr "")
  /\ Number (destructure "offset" (num_of_Z 0) (query req)) = Normal (num_of_Z 0)
  /\ exists po : list (string * value),
       calls (trace collab (listProducts req) stocked) = [(Products, c_list (VObject po))]
       /\ prop "limit" po = Some (VNumber (num_of_Z 0)).
Proof.
  intros req.
  split; [ right; reflexivity | split; [ reflexivity | split; [ reflexivity | ] ] ].
  destruct (list_empty_string_is_zero world collab req stocked "limit" "offset" 0
              (num_of_Z 0) (or_intror eq_refl) eq_refl eq_refl)
    as (po & oo & Hp & _ & Hk & _).
  exists po. split; [ exact Hp | exact Hk ].
Defined.

(** The request of C10's counterexample has the empty string as limit, and
    an offset whose coercion throws: [list] is not called, with limit 0 or
    otherwise. *)
Lemma list_empty_string_is_zero_counterexample :
  prop "limit" (query bad_offset_empty_limit) = Some (QStr "")
  /\ calls (trace collab (listProducts bad_offset_empty_limit) stocked) = []
  /\ calls (trace collab (listOrders bad_offset_empty_limit) stocked) = []
  /\ result collab (listProducts bad_offset_empty_limit) stocked = Threw TypeError
  /\ result collab (listOrders bad_offset_empty_limit) stocked = Threw TypeError
  /\ ~ (exists po : list (string * value),
          calls (trace collab (listProducts bad_offset_empty_limit) stocked) =
            [(Products, c_list (VObject po))]
          /\ prop "limit" po = Some (VNumber (num_of_Z 0))).
Proof.
  repeat split; try reflexivity.
  intros (po & Hc & _). discriminate Hc.
Qed.

Lemma autoCatch_forwards_rejections_witness :
  let wrapped : handler := fun req => catch (createProduct req) (fun e => next [e]) in
  let E := VString "invalid fields" in
  In ("createProduct", wrapped) (exports "/srv" append)
  /\ In (Called Products (c_create VUndefined) (Rejected E))
        (trace collab (wrapped req0) stocked)
  /\ next_calls (trace collab (wrapped req0) stocked) = [[E]]
  /\ responded (trace collab (wrapped req0) stocked) = false.
Proof.
  intros wrapped E.
  assert (Hin : In ("createProduct", wrapped) (exports "/srv" append)).
  { right. right. right. left. reflexivity. }
  split; [ exact Hin | split; [ left; reflexivity | ] ].
  destruct (autoCatch_forwards_rejections world collab "/srv" append
              "createProduct" wrapped Hin) as (h & _ & Hall).
  exact (proj1 (Hall req0 stocked) Products (c_create VUndefined) E
           (or_introl eq_refl)).
Defined.

(* ================================================================== *)
(** ** Further properties of the handlers *)
(* ================================================================== *)

Section Conduct.

Variable world : Type.
Variable collab : resource -> call -> world -> settled * world.
Variable __dirname : string.
Variable path_join : string -> string -> string.

(** Runs a handler body on each outcome of its coercions, on each
    settlement of its call, and on each truthiness of the value where the
    body tests it. *)
Ltac settle_all :=
  unfold trace, result;
  cbn [run bind await eval catch res_json res_sendFile next fst snd negb
       calls effects map List.length];
  repeat match goal with
    | |- context [Number ?x] =>
        destruct (Number x);
        cbn [run bind await eval catch res_json res_sendFile next fst snd negb
             calls effects map List.length]
    | |- context [collab ?m ?c ?w] =>
        let E := fresh "Hcall" in
        destruct (collab m c w) as [[? | ? | ] ?] eqn:E;
        cbn [run bind await eval catch res_json res_sendFile next fst snd negb
             calls effects map List.length]
    | |- context [ToBoolean ?v] =>
        destruct (ToBoolean v);
        cbn [run bind await eval catch res_json res_sendFile next fst snd negb
             calls effects map List.length]
    end.






(** X3. A product handler calls only [Products], an order handler only
    [Orders], and none of them more than once; [handleRoot] calls neither,
    sends the index page whatever the request and leaves the collaborators
    as they are. *)
Theorem handlers_keep_to_their_module :
  forall (req : request) (w : world),
    (forall h : handler,
       In h [listProducts; getProduct; createProduct; editProduct; deleteProduct] ->
       Forall (fun mc => fst mc = Products) (calls (trace collab (h req) w))
       /\ (List.length (calls (trace collab (h req) w)) <= 1)%nat)
    /\ (forall h : handler,
          In h [listOrders; getOrder; createOrder; editOrder; deleteOrder] ->
          Forall (fun mc => fst mc = Orders) (calls (trace collab (h req) w))
          /\ (List.length (calls (trace collab (h req) w)) <= 1)%nat)
    /\ run collab (handleRoot __dirname path_join req) w =
         ([Did (ESendFile (path_join __dirname "/index.html"))], Done tt, w).
Proof.
  intros req w.
  split; [ | split; [ | reflexivity ] ];
    intros h Hin; cbn [In] in Hin;
    repeat match goal with
      | H : _ \/ _ |- _ => destruct H as [H | H]
      | H : False |- _ => destruct H
      end;
    subst h;
    unfold listProducts, getProduct, createProduct, editProduct,
      deleteProduct, createOrder, listOrders, editOrder, deleteOrder, getOrder;
    settle_all; split; repeat constructor.
Qed.

(** X4. [listProducts] reads the keys offset, limit and tag of the query and
    nothing else of the request, [listOrders] the keys offset, limit,
    productId and status; the options object of any call they make has
    exactly those keys, in the order of the source, so no other query
    parameter reaches the collaborator. *)
Theorem list_handlers_read_only_their_keys :
  forall (req1 req2 : request) (w : world),
    ((forall k : string,
        In k ["offset"; "limit"; "tag"] ->
        prop k (query req1) = prop k (query req2)) ->
     listProducts req1 = listProducts req2)
    /\ ((forall k : string,
           In k ["offset"; "limit"; "productId"; "status"] ->
           prop k (query req1) = prop k (query req2)) ->
        listOrders req1 = listOrders req2)
    /\ (forall (m : resource) (c : call),
          In (m, c) (calls (trace collab (listProducts req1) w)) ->
          exists po : list (string * value),
            c = c_list (VObject po) /\ map fst po = ["offset"; "limit"; "tag"])
    /\ (forall (m : resource) (c : call),
          In (m, c) (calls (trace collab (listOrders req1) w)) ->
          exists oo : list (string * value),
            c = c_list (VObject oo)
            /\ map fst oo = ["offset"; "limit"; "productId"; "status"]).
Proof.
  intros req1 req2 w.
  split; [ | split; [ | split ] ].
  - intros Hk.
    assert (Ho := Hk "offset" ltac:(cbn; auto)).
    assert (Hl := Hk "limit" ltac:(cbn; auto)).
    assert (Ht := Hk "tag" ltac:(cbn; auto)).
    unfold listProducts, destructure. rewrite Ho, Hl, Ht. reflexivity.
  - intros Hk.
    assert (Ho := Hk "offset" ltac:(cbn; auto)).
    assert (Hl := Hk "limit" ltac:(cbn; auto)).
    assert (Hp := Hk "productId" ltac:(cbn; auto)).
    assert (Hs := Hk "status" ltac:(cbn; auto 6)).
    unfold listOrders, destructure. rewrite Ho, Hl, Hp, Hs. reflexivity.
  - intros m c. unfold listProducts. settle_all; cbn [In]; intros Hin;
      first [ destruct Hin as [[= <- <-] | []]; eexists; split; reflexivity
            | destruct Hin ].
  - intros m c. unfold listOrders. settle_all; cbn [In]; intros Hin;
      first [ destruct Hin as [[= <- <-] | []]; eexists; split; reflexivity
            | destruct Hin ].
Qed.

(** X5. The by-id handlers read [req.params.id], the create handlers [req.body],
    the edit handlers both, and nothing else: requests that agree there are
    handled alike. *)
Theorem item_handlers_read_only_id_and_body :
  forall req1 req2 : request,
    (prop "id" (params req1) = prop "id" (params req2) ->
       getProduct req1 = getProduct req2
       /\ getOrder req1 = getOrder req2
       /\ deleteProduct req1 = deleteProduct req2
       /\ deleteOrder req1 = deleteOrder req2)
    /\ (body req1 = body req2 ->
          createProduct req1 = createProduct req2
          /\ createOrder req1 = createOrder req2)
    /\ (prop "id" (params req1) = prop "id" (params req2) ->
          body req1 = body req2 ->
          editProduct req1 = editProduct req2
          /\ editOrder req1 = editOrder req2).
Proof.
  intros req1 req2.
  unfold getProduct, getOrder, deleteProduct, deleteOrder, createProduct,
    createOrder, editProduct, editOrder, param.
  split; [ | split ].
  - intros ->. repeat split; reflexivity.
  - intros ->. repeat split; reflexivity.
  - intros -> ->. repeat split; reflexivity.
Qed.

(** X6. When the route gave no [id], the by-id handlers do not stop: they call
    [get], [edit] and [destroy] with [undefined]. *)
Theorem missing_id_is_passed_as_undefined :
  forall (req : request) (w : world),
    prop "id" (params req) = None ->
    calls (trace collab (getProduct req) w) = [(Products, c_get VUndefined)]
    /\ calls (trace collab (getOrder req) w) = [(Orders, c_get VUndefined)]
    /\ calls (trace collab (editProduct req) w) = [(Products, c_edit VUndefined (body req))]
    /\ calls (trace collab (editOrder req) w) = [(Orders, c_edit VUndefined (body req))]
    /\ calls (trace collab (deleteProduct req) w) = [(Products, c_destroy VUndefined)]
    /\ calls (trace collab (deleteOrder req) w) = [(Orders, c_destroy VUndefined)].
Proof.
  intros req w Hid.
  unfold getProduct, getOrder, editProduct, editOrder, deleteProduct,
    deleteOrder, param.
  rewrite Hid.
  repeat split; settle_all; reflexivity.
Qed.

(** The values JavaScript takes for false. *)
Lemma ToBoolean_false_iff (v : value) :
  ToBoolean v = false <->
  v = VUndefined \/ v = VNull \/ v = VBool false
  \/ (exists s : bool, v = VNumber (S754_zero s))
  \/ v = VNumber NaN \/ v = VBigInt 0 \/ v = VString "".
Proof.
  split.
  - destruct v as [ | | [ | ] | [s | s | | s m e] | z | s | l | o | n msg]; cbn;
      try discriminate; intros H; auto 9.
    + right. right. right. left. exists s. reflexivity.
    + destruct z; [ auto 9 | discriminate | discriminate ].
    + destruct s as [ | c s']; [ auto 9 | discriminate ].
  - intros [-> | [-> | [-> | [[s ->] | [-> | [-> | ->]]]]]]; reflexivity.
Qed.

(** X7. Of the values [get] can resolve to, [getProduct] and [getOrder] pass
    on to [next] exactly [undefined], [null], [false], [+0], [-0], [NaN],
    [0n] and the empty string; every other value, an empty object or array
    included, is sent. *)
Theorem get_defers_exactly_on_falsy :
  forall (req : request) (w w1 : world) (m : resource) (v : value),
    collab m (c_get (param "id" req)) w = (Fulfilled v, w1) ->
    let h := match m with Products => getProduct | Orders => getOrder end in
    let falsy :=
      v = VUndefined \/ v = VNull \/ v = VBool false
      \/ (exists s : bool, v = VNumber (S754_zero s))
      \/ v = VNumber NaN \/ v = VBigInt 0 \/ v = VString "" in
    (falsy -> effects (trace collab (h req) w) = [ENext []])
    /\ (~ falsy -> effects (trace collab (h req) w) = [EJson v]).
Proof.
  intros req w w1 m v Hc h falsy.
  assert (Hrun : effects (trace collab (h req) w) =
                 [if ToBoolean v then EJson v else ENext []]).
  { unfold trace. destruct m; subst h; unfold getProduct, getOrder;
      rewrite run_await_found, Hc; reflexivity. }
  rewrite Hrun.
  split; intros Hf.
  - apply ToBoolean_false_iff in Hf. rewrite Hf. reflexivity.
  - destruct (ToBoolean v) eqn:E; [ reflexivity | ].
    exfalso. apply Hf. apply ToBoolean_false_iff. exact E.
Qed.

End Conduct.

(* ================================================================== *)
(** ** Further properties of the coercion of offset and limit *)
(* ================================================================== *)

Section Paging.

Variable world : Type.
Variable collab : resource -> call -> world -> settled * world.

(** What a list handler passes under a key: a property of the options
    object when both coercions complete, nothing otherwise. *)
Lemma list_option_passed (req : request) (w : world) (k : string) :
  option_passed k (trace collab (listProducts req) w) =
    match Number (destructure "offset" (num_of_Z 0) (query req)),
          Number (destructure "limit" (num_of_Z 25) (query req)) with
    | Normal o, Normal l =>
        prop k [("offset", VNumber o); ("limit", VNumber l);
                ("tag", or_undefined (prop "tag" (query req)))]
    | _, _ => None
    end
  /\ option_passed k (trace collab (listOrders req) w) =
    match Number (destructure "offset" (num_of_Z 0) (query req)),
          Number (destructure "limit" (num_of_Z 25) (query req)) with
    | Normal o, Normal l =>
        prop k [("offset", VNumber o); ("limit", VNumber l);
                ("productId", or_undefined (prop "productId" (query req)));
                ("status", or_undefined (prop "status" (query req)))]
    | _, _ => None
    end.
Proof.
  unfold trace. rewrite run_listProducts, run_listOrders.
  destruct (Number (destructure "offset" _ _)) as [o | e];
    [ | split; reflexivity ].
  destruct (Number (destructure "limit" _ _)) as [l | e];
    [ | split; reflexivity ].
  rewrite !run_await_json.
  split;
    match goal with
    | |- context [collab ?m ?c w] => destruct (collab m c w) as [[v | e | ] w1]
    end; reflexivity.
Qed.

(** A list handler passes under offset or limit nothing but the Number of
    the query value. *)
Lemma list_option_passed_is_Number (req : request) (w : world) (k : string)
      (q : qs) (v : value) :
  k = "offset" \/ k = "limit" ->
  prop k (query req) = Some q ->
  option_passed k (trace collab (listProducts req) w) = Some v
  \/ option_passed k (trace collab (listOrders req) w) = Some v ->
  exists n : number, Number (Query q) = Normal n /\ v = VNumber n.
Proof.
  intros Hk Hq Hv.
  destruct (list_option_passed req w k) as [Hp Ho].
  rewrite Hp, Ho in Hv. clear Hp Ho.
  unfold destructure in Hv.
  destruct Hk as [-> | ->]; rewrite Hq in Hv;
    destruct (Number (Query q)) as [n | e];
    try (destruct Hv; discriminate);
    match type of Hv with
    | context [match ?x with _ => _ end] =>
        destruct x; try (destruct Hv; discriminate)
    | _ => idtac
    end;
    exists n; split; try reflexivity;
    destruct Hv as [Hv | Hv]; cbn in Hv; congruence.
Qed.

(** X8. An offset or limit made of white space only (of the code units TAB,
    LF, VT, FF, CR, SP and NBSP) is passed as 0, like the empty string, and
    not as the default, when the coercion of the other one completes. *)
Theorem blank_offset_or_limit_is_zero :
  forall (req : request) (w : world) (k k' : string) (d' : Z) (s : string)
         (n : number),
    (k, k', d') = ("offset", "limit", 25) \/ (k, k', d') = ("limit", "offset", 0) ->
    prop k (query req) = Some (QStr s) ->
    blank s = true ->
    Number (destructure k' (num_of_Z d') (query req)) = Normal n ->
    option_passed k (trace collab (listProducts req) w) = Some (VNumber (num_of_Z 0))
    /\ option_passed k (trace collab (listOrders req) w) = Some (VNumber (num_of_Z 0)).
Proof.
  intros req w k k' d' s n Hk Hs Hb Hn.
  assert (Hz : Number (Query (QStr s)) = Normal (num_of_Z 0)).
  { cbn [Number ToString]. unfold StringToNumber.
    rewrite (CoercionFacts.trim_blank s Hb). reflexivity. }
  destruct (list_option_passed req w k) as [Hp Ho].
  rewrite Hp, Ho. clear Hp Ho.
  destruct Hk as [[= -> -> ->] | [= -> -> ->]].
  - rewrite Hn. unfold destructure. rewrite Hs, Hz. split; reflexivity.
  - rewrite Hn. unfold destructure. rewrite Hs, Hz. split; reflexivity.
Qed.

(** X9. White space (TAB, LF, VT, FF, CR, SP, NBSP) around an offset or
    limit does not count: a request with the string [s] there and a request
    with [s] trimmed, alike in the other keys the handlers read, are
    handled identically. *)
Theorem white_space_around_offset_or_limit_is_ignored :
  forall (req1 req2 : request) (k s : string),
    k = "offset" \/ k = "limit" ->
    prop k (query req1) = Some (QStr s) ->
    prop k (query req2) = Some (QStr (trim s)) ->
    (forall k' : string,
       In k' ["offset"; "limit"; "tag"; "productId"; "status"] ->
       k' <> k ->
       prop k' (query req1) = prop k' (query req2)) ->
    listProducts req1 = listProducts req2
    /\ listOrders req1 = listOrders req2.
Proof.
  intros req1 req2 k s Hk H1 H2 Hrest.
  assert (Hz : Number (Query (QStr (trim s))) = Number (Query (QStr s))).
  { cbn [Number ToString]. rewrite CoercionFacts.StringToNumber_trim. reflexivity. }
  assert (Ht := Hrest "tag" ltac:(cbn; auto)).
  assert (Hp := Hrest "productId" ltac:(cbn; auto 6)).
  assert (Hs := Hrest "status" ltac:(cbn; auto 6)).
  unfold listProducts, listOrders, destructure.
  destruct Hk as [-> | ->].
  - assert (Hl := Hrest "limit" ltac:(cbn; auto) ltac:(discriminate)).
    rewrite H1, H2, Hz, Hl, Ht, Hp, Hs by discriminate. split; reflexivity.
  - assert (Ho := Hrest "offset" ltac:(cbn; auto) ltac:(discriminate)).
    rewrite H1, H2, Hz, Ho, Ht, Hp, Hs by discriminate. split; reflexivity.
Qed.

(** X10. An offset or limit that the query parser delivers as an array of
    one element counts as its element, and as an empty array counts as the
    empty string: requests that differ only so are handled identically. *)
Theorem array_offset_or_limit_counts_as_its_element :
  forall (req1 req2 : request) (k : string) (a b : qs),
    k = "offset" \/ k = "limit" ->
    prop k (query req1) = Some a ->
    prop k (query req2) = Some b ->
    a = QArr [b] \/ (a = QArr [] /\ b = QStr "") ->
    (forall k' : string,
       In k' ["offset"; "limit"; "tag"; "productId"; "status"] ->
       k' <> k ->
       prop k' (query req1) = prop k' (query req2)) ->
    listProducts req1 = listProducts req2
    /\ listOrders req1 = listOrders req2.
Proof.
  intros req1 req2 k a b Hk H1 H2 Hab Hrest.
  assert (Hz : Number (Query a) = Number (Query b)).
  { destruct Hab as [-> | [-> ->]]; [ | reflexivity ].
    unfold Number. rewrite CoercionFacts.ToString_singleton. reflexivity. }
  assert (Ht := Hrest "tag" ltac:(cbn; auto)).
  assert (Hp := Hrest "productId" ltac:(cbn; auto 6)).
  assert (Hs := Hrest "status" ltac:(cbn; auto 6)).
  unfold listProducts, listOrders, destructure.
  destruct Hk as [-> | ->].
  - assert (Hl := Hrest "limit" ltac:(cbn; auto) ltac:(discriminate)).
    rewrite H1, H2, Hz, Hl, Ht, Hp, Hs by discriminate. split; reflexivity.
  - assert (Ho := Hrest "offset" ltac:(cbn; auto) ltac:(discriminate)).
    rewrite H1, H2, Hz, Ho, Ht, Hp, Hs by discriminate. split; reflexivity.
Qed.

(** X11. A repeated offset or limit ([?limit=1&limit=2]), which the query
    parser delivers as an array of two elements or more, is never passed as
    a number: whatever a list handler passes in its place is NaN; and when
    an element cannot be converted the handler throws the TypeError and
    calls nothing. *)
Theorem repeated_offset_or_limit_is_NaN :
  forall (req : request) (w : world) (k : string) (q1 q2 : qs) (l : list qs),
    k = "offset" \/ k = "limit" ->
    prop k (query req) = Some (QArr (q1 :: q2 :: l)) ->
    (forall v : value,
       option_passed k (trace collab (listProducts req) w) = Some v
       \/ option_passed k (trace collab (listOrders req) w) = Some v ->
       v = VNumber NaN)
    /\ (ToString (QArr (q1 :: q2 :: l)) = None ->
        run collab (listProducts req) w = ([], Threw TypeError, w)
        /\ run collab (listOrders req) w = ([], Threw TypeError, w)).
Proof.
  intros req w k q1 q2 l Hk Hq. split.
  - intros v Hv.
    destruct (list_option_passed_is_Number req w k _ v Hk Hq Hv) as (n & Hn & ->).
    unfold Number in Hn.
    destruct (ToString (QArr (q1 :: q2 :: l))) as [s | ] eqn:Es; [ | discriminate ].
    injection Hn as <-.
    rewrite (CoercionFacts.StringToNumber_comma s
               (CoercionFacts.ToString_array_comma q1 q2 l s Es)).
    reflexivity.
  - intros Hnone.
    assert (Hn : Number (Query (QArr (q1 :: q2 :: l))) = Abrupt TypeError).
    { unfold Number. rewrite Hnone. reflexivity. }
    rewrite run_listProducts, run_listOrders.
    destruct Hk as [-> | ->].
    + unfold destructure. rewrite Hq, Hn. split; reflexivity.
    + destruct (Number (destructure "offset" (num_of_Z 0) (query req)))
        as [n | e] eqn:Eo.
      * unfold destructure. rewrite Hq, Hn. split; reflexivity.
      * rewrite (CoercionFacts.Number_throws_TypeError _ e Eo). split; reflexivity.
Qed.

(** X12. An offset or limit that the query parser delivers as an object is
    never passed as a number: whatever a list handler passes in its place
    is NaN; and when the object has a [toString] key of its own
    ([?limit[toString]=x]) the handler throws the TypeError and calls
    nothing. *)
Theorem object_offset_or_limit_is_NaN_or_throws :
  forall (req : request) (w : world) (k : string) (o : list (string * qs)),
    k = "offset" \/ k = "limit" ->
    prop k (query req) = Some (QObj o) ->
    (forall v : value,
       option_passed k (trace collab (listProducts req) w) = Some v
       \/ option_passed k (trace collab (listOrders req) w) = Some v ->
       v = VNumber NaN)
    /\ (has_key "toString" o = true ->
        run collab (listProducts req) w = ([], Threw TypeError, w)
        /\ run collab (listOrders req) w = ([], Threw TypeError, w)).
Proof.
  intros req w k o Hk Hq. split.
  - intros v Hv.
    destruct (list_option_passed_is_Number req w k _ v Hk Hq Hv) as (n & Hn & ->).
    unfold Number in Hn. cbn [ToString] in Hn.
    destruct (has_key "toString" o); [ discriminate | ].
    injection Hn as <-. reflexivity.
  - intros Hkey.
    assert (Hn : Number (Query (QObj o)) = Abrupt TypeError).
    { unfold Number. cbn [ToString]. rewrite Hkey. reflexivity. }
    rewrite run_listProducts, run_listOrders.
    destruct Hk as [-> | ->].
    + unfold destructure. rewrite Hq, Hn. split; reflexivity.
    + destruct (Number (destructure "offset" (num_of_Z 0) (query req)))
        as [n | e] eqn:Eo.
      * unfold destructure. rewrite Hq, Hn. split; reflexivity.
      * rewrite (CoercionFacts.Number_throws_TypeError _ e Eo). split; reflexivity.
Qed.

End Paging.

(** *** The further properties on the in-memory collaborator *)



Lemma handlers_keep_to_their_module_witness :
  In editOrder [listOrders; getOrder; createOrder; editOrder; deleteOrder]
  /\ Forall (fun mc => fst mc = Orders)
        (calls (trace collab (editOrder (with_id "7" VNull)) stocked))
  /\ (List.length (calls (trace collab (editOrder (with_id "7" VNull)) stocked)) <= 1)%nat.
Proof.
  assert (Hin : In editOrder [listOrders; getOrder; createOrder; editOrder; deleteOrder]).
  { right. right. right. left. reflexivity. }
  split; [ exact Hin | ].
  exact (proj1 (proj2 (handlers_keep_to_their_module world collab "/srv" append
                         (with_id "7" VNull) stocked))
           editOrder Hin).
Defined.

Lemma list_handlers_read_only_their_keys_witness :
  let req1 := with_query [("limit", QStr "5"); ("status", QStr "paid");
                          ("admin", QStr "1")] in
  let req2 := {| query := [("limit", QStr "5")];
                 params := [("id", "7")];
                 body := VNull |} in
  (forall k : string,
     In k ["offset"; "limit"; "tag"] ->
     prop k (query req1) = prop k (query req2))
  /\ listProducts req1 = listProducts req2.
Proof.
  intros req1 req2.
  assert (Hk : forall k : string,
             In k ["offset"; "limit"; "tag"] ->
             prop k (query req1) = prop k (query req2)).
  { intros k Hin. cbn [In] in Hin.
    destruct Hin as [<- | [<- | [<- | []]]]; reflexivity. }
  split; [ exact Hk | ].
  exact (proj1 (list_handlers_read_only_their_keys world collab req1 req2 stocked) Hk).
Defined.

Lemma item_handlers_read_only_id_and_body_witness :
  let req1 := with_id "7" VNull in
  let req2 := {| query := [("limit", QStr "5")];
                 params := [("id", "7")];
                 body := VString "ignored" |} in
  prop "id" (params req1) = prop "id" (params req2)
  /\ getProduct req1 = getProduct req2
  /\ deleteOrder req1 = deleteOrder req2.
Proof.
  intros req1 req2.
  split; [ reflexivity | ].
  destruct (proj1 (item_handlers_read_only_id_and_body req1 req2) eq_refl)
    as (Hg & _ & _ & Hd).
  split; [ exact Hg | exact Hd ].
Defined.

Lemma missing_id_is_passed_as_undefined_witness :
  prop "id" (params req0) = None
  /\ calls (trace collab (getProduct req0) stocked) = [(Products, c_get VUndefined)]
  /\ calls (trace collab (deleteOrder req0) stocked) = [(Orders, c_destroy VUndefined)].
Proof.
  split; [ reflexivity | ].
  destruct (missing_id_is_passed_as_undefined world collab req0 stocked eq_refl)
    as (Hg & _ & _ & _ & _ & Hd).
  split; [ exact Hg | exact Hd ].
Defined.

Lemma get_defers_exactly_on_falsy_witness :
  let req := with_id "42" VUndefined in
  collab Products (c_get (param "id" req)) stocked = (Fulfilled VNull, stocked)
  /\ effects (trace collab (getProduct req) stocked) = [ENext []].
Proof.
  intros req.
  split; [ reflexivity | ].
  apply (proj1 (get_defers_exactly_on_falsy world collab req stocked stocked
                  Products VNull eq_refl)).
  right. left. reflexivity.
Defined.

Lemma blank_offset_or_limit_is_zero_witness :
  let req := with_query [("limit", QStr "  ")] in
  (("limit", "offset", 0) = ("offset", "limit", 25)
   \/ ("limit", "offset", 0) = ("limit", "offset", 0))
  /\ prop "limit" (query req) = Some (QStr "  ")
  /\ blank "  " = true
  /\ Number (destructure "offset" (num_of_Z 0) (query req)) = Normal (num_of_Z 0)
  /\ option_passed "limit" (trace collab (listProducts req) stocked) =
       Some (VNumber (num_of_Z 0)).
Proof.
  intros req.
  split; [ right; reflexivity
         | split; [ reflexivity | split; [ reflexivity | split; [ reflexivity | ] ] ] ].
  exact (proj1 (blank_offset_or_limit_is_zero world collab req stocked
                  "limit" "offset" 0 "  " (num_of_Z 0)
                  (or_intror eq_refl) eq_refl eq_refl eq_refl)).
Defined.

Lemma white_space_around_offset_or_limit_is_ignored_witness :
  let req1 := with_query [("limit", QStr " 10"); ("tag", QStr "shoes")] in
  let req2 := with_query [("limit", QStr "10"); ("tag", QStr "shoes")] in
  ("limit" = "offset" \/ "limit" = "limit")
  /\ prop "limit" (query req1) = Some (QStr " 10")
  /\ prop "limit" (query req2) = Some (QStr (trim " 10"))
  /\ listProducts req1 = listProducts req2
  /\ listOrders req1 = listOrders req2.
Proof.
  intros req1 req2.
  split; [ right; reflexivity | split; [ reflexivity | split; [ reflexivity | ] ] ].
  apply (white_space_around_offset_or_limit_is_ignored req1 req2 "limit" " 10"
           (or_intror eq_refl) eq_refl eq_refl).
  intros k' Hin Hne. cbn [In] in Hin.
  destruct Hin as [<- | [<- | [<- | [<- | [<- | []]]]]];
    first [ reflexivity | exfalso; apply Hne; reflexivity ].
Defined.

Lemma array_offset_or_limit_counts_as_its_element_witness :
  let req1 := with_query [("limit", QArr [QStr "5"])] in
  let req2 := with_query [("limit", QStr "5")] in
  ("limit" = "offset" \/ "limit" = "limit")
  /\ prop "limit" (query req1) = Some (QArr [QStr "5"])
  /\ prop "limit" (query req2) = Some (QStr "5")
  /\ listProducts req1 = listProducts req2
  /\ listOrders req1 = listOrders req2.
Proof.
  intros req1 req2.
  split; [ right; reflexivity | split; [ reflexivity | split; [ reflexivity | ] ] ].
  apply (array_offset_or_limit_counts_as_its_element req1 req2 "limit"
           (QArr [QStr "5"]) (QStr "5")
           (or_intror eq_refl) eq_refl eq_refl (or_introl eq_refl)).
  intros k' Hin Hne. cbn [In] in Hin.
  destruct Hin as [<- | [<- | [<- | [<- | [<- | []]]]]];
    first [ reflexivity | exfalso; apply Hne; reflexivity ].
Defined.

Lemma repeated_offset_or_limit_is_NaN_witness :
  let req := with_query [("limit", QArr [QStr "1"; QStr "2"])] in
  ("limit" = "offset" \/ "limit" = "limit")
  /\ prop "limit" (query req) = Some (QArr [QStr "1"; QStr "2"])
  /\ exists v : value,
       option_passed "limit" (trace collab (listProducts req) stocked) = Some v
       /\ v = VNumber NaN.
Proof.
  intros req.
  split; [ right; reflexivity | split; [ reflexivity | ] ].
  eexists. split; [ reflexivity | ].
  apply (proj1 (repeated_offset_or_limit_is_NaN world collab req stocked "limit"
                  (QStr "1") (QStr "2") [] (or_intror eq_refl) eq_refl)).
  left. reflexivity.
Defined.

Lemma object_offset_or_limit_is_NaN_or_throws_witness :
  ("limit" = "offset" \/ "limit" = "limit")
  /\ prop "limit" (query no_offset_bad_limit) = Some poison
  /\ has_key "toString" [("toString", QStr "x")] = true
  /\ run collab (listProducts no_offset_bad_limit) stocked = ([], Threw TypeError, stocked)
  /\ run collab (listOrders no_offset_bad_limit) stocked = ([], Threw TypeError, stocked).
Proof.
  split; [ right; reflexivity | split; [ reflexivity | split; [ reflexivity | ] ] ].
  exact (proj2 (object_offset_or_limit_is_NaN_or_throws world collab
                  no_offset_bad_limit stocked "limit" [("toString", QStr "x")]
                  (or_intror eq_refl) eq_refl)
           eq_refl).
Defined.
